(** * httpbench: the load-generation engine, embedded and checked

    A shallow embedding of the parts of [pkg/config], [pkg/validator],
    [pkg/stats] and [pkg/benchmark] that the specification talks about,
    followed by the properties established about them.

    Conventions.
    - Go's [int], [int64] and [time.Duration] are 64-bit signed integers;
      they are carried as [Z] and every arithmetic operation of the source
      goes through [wrap64].
    - [time.Time] readings are [Z] nanoseconds on the monotonic clock.
    - [error] results are [option]: [None] is Go's [nil].
    - [float64] values ([RPS], [ErrorRate], [Duration.Seconds]) are carried
      as exact rationals [Q].
    - Packages outside the repository ([regexp], [net/http] header
      canonicalisation, [hdrhistogram]) are interfaces (type classes). *)

From stdpp Require Import gmap strings list.
From Stdlib Require Import ZArith QArith Lia.

Local Open Scope Z_scope.

(** ** 64-bit integers *)

Module Int64.

Definition min_int : Z := - 2 ^ 63.
Definition max_int : Z := 2 ^ 63 - 1.

(** Two's-complement wrap-around of a mathematical integer. *)
Definition wrap64 (z : Z) : Z := (z + 2 ^ 63) mod 2 ^ 64 - 2 ^ 63.

Definition add64 (a b : Z) : Z := wrap64 (a + b).
Definition sub64 (a b : Z) : Z := wrap64 (a - b).

(** Go's [/] on integers truncates toward zero; the caller handles [b = 0]
    (a run-time panic). *)
Definition quot64 (a b : Z) : Z := wrap64 (Z.quot a b).

Definition in_range (z : Z) : Prop := min_int <= z <= max_int.

End Int64.

Import Int64.

(** ** pkg/config *)

Module Config.

Record TargetConfig := {
  URL : string;
  Method : string;
  Headers : gmap string string;
  Body : string;
  Timeout : Z
}.

Inductive LoadPattern := LoadPatternConstant | LoadPatternRampUp | LoadPatternBurst.

Record RampUpConfig := {
  RampUp_Enabled : bool;
  StartConcurrency : Z;
  EndConcurrency : Z;
  RampUp_Duration : Z;
  Steps : Z
}.

Record BurstConfig := {
  Burst_Enabled : bool;
  BaseConcurrency : Z;
  BurstConcurrency : Z;
  BurstDuration : Z;
  BurstInterval : Z
}.

Record LoadConfig := {
  Concurrency : Z;
  Duration : Z;
  TotalRequests : Z;
  RateLimit : Z;
  Load_Pattern : LoadPattern;
  RampUp : RampUpConfig;
  BurstMode : BurstConfig
}.

Record ProtocolConfig := {
  HTTP2Enabled : bool;
  HTTP3Enabled : bool;
  KeepAlive : bool;
  IdleTimeout : Z
}.

Record BodyValidation := {
  MinSize : Z;
  MaxSize : Z;
  Contains : list string;
  NotContains : list string;
  JSONSchema : string
}.

Record ValidationConfig := {
  StatusCodes : list Z;
  ContentPatterns : list string;
  ResponseTimeMax : Z;
  HeaderValidation : gmap string string;
  Body_Validation : BodyValidation
}.

Record DistributedConfig := {
  Distributed_Enabled : bool;
  WorkerMode : bool;
  MasterAddress : string;
  WorkerAddresses : list string
}.

(** [Request], [TLS] and [Output] are not read by any function modelled
    here and are left out of the record. *)
Record Config := {
  Target : TargetConfig;
  Load : LoadConfig;
  Protocol : ProtocolConfig;
  Validation : ValidationConfig;
  Distributed : DistributedConfig
}.

(** The five [fmt.Errorf] values [Validate] can return, one per guard. *)
Inductive ConfigError :=
| ErrEmptyURL
| ErrConcurrency
| ErrNoDurationOrTotal
| ErrHTTP2AndHTTP3
| ErrNoWorkerAddresses.

(** [func (c *Config) Validate() error] *)
Definition Validate (c : Config) : option ConfigError :=
  if String.eqb (URL (Target c)) EmptyString then Some ErrEmptyURL
  else if Concurrency (Load c) <=? 0 then Some ErrConcurrency
  else if (Duration (Load c) <=? 0) && (TotalRequests (Load c) <=? 0)
       then Some ErrNoDurationOrTotal
  else if HTTP2Enabled (Protocol c) && HTTP3Enabled (Protocol c)
       then Some ErrHTTP2AndHTTP3
  else if Distributed_Enabled (Distributed c)
          && negb (WorkerMode (Distributed c))
          && (length (WorkerAddresses (Distributed c)) =? 0)%nat
       then Some ErrNoWorkerAddresses
  else None.

(** The four conditions the specification lists, as a boolean. *)
Definition listed_violation (c : Config) : bool :=
  String.eqb (URL (Target c)) EmptyString
  || (Concurrency (Load c) <=? 0)
  || negb ((0 <? Duration (Load c)) || (0 <? TotalRequests (Load c)))
  || (HTTP2Enabled (Protocol c) && HTTP3Enabled (Protocol c)).

(** The fifth guard of the source. *)
Definition distributed_violation (c : Config) : bool :=
  Distributed_Enabled (Distributed c)
  && negb (WorkerMode (Distributed c))
  && (length (WorkerAddresses (Distributed c)) =? 0)%nat.

End Config.

(** ** pkg/validator *)

Module Validator.

Import Config.

(** The part of Go's [regexp] package the validator uses. *)
Class RegexpLib := {
  Regexp : Type;
  regexp_Compile : string -> option Regexp;
  regexp_Match : Regexp -> string -> bool;
  regexp_String : Regexp -> string
}.

(** [net/textproto.CanonicalMIMEHeaderKey], used by [http.Header.Get]. *)
Class HeaderLib := {
  CanonicalHeaderKey : string -> string
}.

(** [*http.Response], reduced to what [Validate] reads. *)
Record Response := {
  StatusCode : Z;
  Header : gmap string (list string)
}.

(** [http.Header.Get]: first value stored under the canonical key, or the
    empty string. *)
Definition Header_Get `{HeaderLib} (h : gmap string (list string)) (key : string) : string :=
  match h !! CanonicalHeaderKey key with
  | Some (v :: _) => v
  | _ => EmptyString
  end.

(** [bytes.Contains]: [sub] occurs in [b] as a contiguous run of bytes. *)
Fixpoint bytes_Contains (b sub : string) : bool :=
  String.prefix sub b ||
  match b with
  | EmptyString => false
  | String _ b' => bytes_Contains b' sub
  end.

(** The arguments each [fmt.Sprintf] of the validator formats. *)
Inductive Message :=
| MsgStatusNotAllowed (code : Z) (allowed : list Z)
| MsgHeaderMismatch (key expected actual : string)
| MsgBodyTooSmall (bodyLen minSize : Z)
| MsgBodyTooLarge (bodyLen maxSize : Z)
| MsgMissingContent (content : string)
| MsgForbiddenContent (content : string)
| MsgPatternMismatch (pattern : string)
| MsgResponseTime (latency threshold : Z).

Record ValidationError := {
  ErrType : string;
  ErrMessage : Message
}.

Record Validator `{RegexpLib} := {
  config : ValidationConfig;
  contentPatterns : list Regexp;
  statusCodeMap : gmap Z bool
}.

(** One iteration of the compile loop of [New].  The second component logs
    every call made to [regexp.Compile]. *)
Definition compileStep `{RegexpLib} (st : list Regexp * list string) (pattern : string)
  : list Regexp * list string :=
  match regexp_Compile pattern with
  | Some re => (st.1 ++ [re], st.2 ++ [pattern])
  | None => (st.1, st.2 ++ [pattern])
  end.

Definition compileAll `{RegexpLib} (patterns : list string) : list Regexp * list string :=
  fold_left compileStep patterns ([], []).

(** [func New(cfg config.ValidationConfig) *Validator] *)
Definition New `{RegexpLib} (cfg : ValidationConfig) : Validator := {|
  config := cfg;
  contentPatterns := (compileAll (ContentPatterns cfg)).1;
  statusCodeMap := fold_left (fun m code => <[code := true]> m) (StatusCodes cfg) ∅
|}.

(** The calls to [regexp.Compile] made while [New cfg] runs. *)
Definition New_compile_calls `{RegexpLib} (cfg : ValidationConfig) : list string :=
  (compileAll (ContentPatterns cfg)).2.

(** Sequencing of checks: the first error returns. *)
Definition orElse (e : option ValidationError) (k : option ValidationError)
  : option ValidationError :=
  match e with
  | Some err => Some err
  | None => k
  end.

(** A [for ... range] loop that returns at the first element failing its
    check. *)
Fixpoint firstError {A} (check : A -> option ValidationError) (l : list A)
  : option ValidationError :=
  match l with
  | [] => None
  | x :: l' => orElse (check x) (firstError check l')
  end.

(** [func (v *Validator) validateStatusCode(code int) error] *)
Definition validateStatusCode `{RegexpLib} (v : Validator) (code : Z) : option ValidationError :=
  if (size (statusCodeMap v) =? 0)%nat then None
  else if negb (default false (statusCodeMap v !! code))
  then Some {| ErrType := "status_code";
               ErrMessage := MsgStatusNotAllowed code (StatusCodes (config v)) |}
  else None.

Definition checkHeader `{HeaderLib} (headers : gmap string (list string))
    (entry : string * string) : option ValidationError :=
  let actualValue := Header_Get headers entry.1 in
  if negb (String.eqb actualValue entry.2)
  then Some {| ErrType := "header";
               ErrMessage := MsgHeaderMismatch entry.1 entry.2 actualValue |}
  else None.

(** [func (v *Validator) validateHeaders(headers http.Header) error].
    Go visits the entries of a map in an unspecified order; [map_to_list]
    stands for the order of one execution.  Only the message of a header
    failure depends on it. *)
Definition validateHeaders `{RegexpLib} `{HeaderLib} (v : Validator)
    (headers : gmap string (list string)) : option ValidationError :=
  firstError (checkHeader headers) (map_to_list (HeaderValidation (config v))).

(** Bodies of the three [for ... range] loops of [validateBody]. *)
Definition requireContent (body content : string) : option ValidationError :=
  if negb (bytes_Contains body content)
  then Some {| ErrType := "body_content"; ErrMessage := MsgMissingContent content |}
  else None.

Definition forbidContent (body content : string) : option ValidationError :=
  if bytes_Contains body content
  then Some {| ErrType := "body_content"; ErrMessage := MsgForbiddenContent content |}
  else None.

Definition requireMatch `{RegexpLib} (body : string) (pattern : Regexp)
  : option ValidationError :=
  if negb (regexp_Match pattern body)
  then Some {| ErrType := "content_pattern";
               ErrMessage := MsgPatternMismatch (regexp_String pattern) |}
  else None.

(** [func (v *Validator) validateBody(body []byte) error] *)
Definition validateBody `{RegexpLib} (v : Validator) (body : string) : option ValidationError :=
  let bodyLen := Z.of_nat (String.length body) in
  let bv := Body_Validation (config v) in
  if (0 <? MinSize bv) && (bodyLen <? MinSize bv)
  then Some {| ErrType := "body_size"; ErrMessage := MsgBodyTooSmall bodyLen (MinSize bv) |}
  else if (0 <? MaxSize bv) && (MaxSize bv <? bodyLen)
  then Some {| ErrType := "body_size"; ErrMessage := MsgBodyTooLarge bodyLen (MaxSize bv) |}
  else
    orElse (firstError (requireContent body) (Contains bv))
   (orElse (firstError (forbidContent body) (NotContains bv))
           (firstError (requireMatch body) (contentPatterns v))).

(** [func (v *Validator) Validate(resp *http.Response, body []byte) error] *)
Definition Validate `{RegexpLib} `{HeaderLib} (v : Validator) (resp : Response) (body : string)
  : option ValidationError :=
  orElse (validateStatusCode v (StatusCode resp))
 (orElse (validateHeaders v (Header resp))
         (validateBody v body)).

(** [func (v *Validator) ValidateWithLatency(resp, body, latency) error] *)
Definition ValidateWithLatency `{RegexpLib} `{HeaderLib} (v : Validator) (resp : Response)
    (body : string) (latency : Z) : option ValidationError :=
  orElse (Validate v resp body)
    (if (0 <? ResponseTimeMax (config v)) && (ResponseTimeMax (config v) <? latency)
     then Some {| ErrType := "response_time";
                  ErrMessage := MsgResponseTime latency (ResponseTimeMax (config v)) |}
     else None).

(** *** The validation pipeline in the specification's words

    Seven checks in a fixed order; each either passes or fails with its
    kind.  A bound, an allowed set or a threshold is configured when it is
    positive, respectively non-empty. *)

Inductive Check :=
| CheckStatus
| CheckHeaders
| CheckBodySize
| CheckRequired
| CheckForbidden
| CheckRegex
| CheckLatency.

Definition check_kind (c : Check) : string :=
  match c with
  | CheckStatus => "status_code"
  | CheckHeaders => "header"
  | CheckBodySize => "body_size"
  | CheckRequired => "body_content"
  | CheckForbidden => "body_content"
  | CheckRegex => "content_pattern"
  | CheckLatency => "response_time"
  end.

(** Whether a check passes, stated on the configuration alone: the regex
    check ranges over the configured patterns that compile. *)
Definition check_passes `{RegexpLib} `{HeaderLib} (cfg : ValidationConfig)
    (resp : Response) (body : string) (latency : Z) (c : Check) : bool :=
  match c with
  | CheckStatus =>
      match StatusCodes cfg with
      | [] => true
      | _ => bool_decide (StatusCode resp ∈ StatusCodes cfg)
      end
  | CheckHeaders =>
      bool_decide (∀ k e, HeaderValidation cfg !! k = Some e → Header_Get (Header resp) k = e)
  | CheckBodySize =>
      let n := Z.of_nat (String.length body) in
      let bv := Body_Validation cfg in
      ((MinSize bv <=? 0) || (MinSize bv <=? n)) && ((MaxSize bv <=? 0) || (n <=? MaxSize bv))
  | CheckRequired =>
      forallb (bytes_Contains body) (Contains (Body_Validation cfg))
  | CheckForbidden =>
      forallb (fun s => negb (bytes_Contains body s)) (NotContains (Body_Validation cfg))
  | CheckRegex =>
      forallb (fun p => match regexp_Compile p with
                        | Some re => regexp_Match re body
                        | None => true
                        end) (ContentPatterns cfg)
  | CheckLatency =>
      (ResponseTimeMax cfg <=? 0) || (latency <=? ResponseTimeMax cfg)
  end.

Definition checks_basic : list Check :=
  [CheckStatus; CheckHeaders; CheckBodySize; CheckRequired; CheckForbidden; CheckRegex].

Definition checks_with_latency : list Check := checks_basic ++ [CheckLatency].

(** The check a pipeline that runs [order] stops at: the first one that
    fails, if any. *)
Definition first_failure `{RegexpLib} `{HeaderLib} (order : list Check)
    (cfg : ValidationConfig) (resp : Response) (body : string) (latency : Z) : option Check :=
  List.find (fun c => negb (check_passes cfg resp body latency c)) order.

(** What a failure of check [c] must report, and what an error does
    report: its kind and the check its message belongs to. *)
Definition expected (c : Check) : string * Check := (check_kind c, c).

Definition message_check (m : Message) : Check :=
  match m with
  | MsgStatusNotAllowed _ _ => CheckStatus
  | MsgHeaderMismatch _ _ _ => CheckHeaders
  | MsgBodyTooSmall _ _ => CheckBodySize
  | MsgBodyTooLarge _ _ => CheckBodySize
  | MsgMissingContent _ => CheckRequired
  | MsgForbiddenContent _ => CheckForbidden
  | MsgPatternMismatch _ => CheckRegex
  | MsgResponseTime _ _ => CheckLatency
  end.

Definition reported (e : ValidationError) : string * Check :=
  (ErrType e, message_check (ErrMessage e)).

End Validator.

(** ** pkg/stats *)

Module Stats.

(** The part of [hdrhistogram-go] the collector uses.  Statistics are
    given after the conversion [time.Duration(...)] the collector applies,
    as whole microseconds. *)
Class HistogramLib := {
  Histogram : Type;
  hdr_New : Z -> Z -> Z -> Histogram;
  hdr_RecordValue : Histogram -> Z -> Histogram;
  hdr_Reset : Histogram -> Histogram;
  hdr_Min : Histogram -> Z;
  hdr_Max : Histogram -> Z;
  hdr_Mean : Histogram -> Z;
  hdr_StdDev : Histogram -> Z;
  hdr_ValueAtQuantile : Histogram -> Q -> Z
}.

Definition Microsecond : Z := 1000.
Definition Second : Z := 1000000000.

(** [time.Time.Sub]: the difference of two readings, saturating at the
    bounds of [time.Duration]. *)
Definition time_Sub (t u : Z) : Z := Z.max min_int (Z.min max_int (t - u)).

(** [time.Duration.Seconds], as an exact rational. *)
Definition Seconds (d : Z) : Q := inject_Z d / inject_Z Second.

(** [time.Duration.Microseconds] *)
Definition Microseconds (d : Z) : Z := Z.quot d Microsecond.

(** [time.Duration(x) * time.Microsecond] *)
Definition micros (x : Z) : Z := wrap64 (x * Microsecond).

(** Comparison [x < y] on [float64], on rationals. *)
Definition Qltb (x y : Q) : bool := negb (Qle_bool y x).

Record TimePoint := {
  Timestamp : Z;
  RPS : Q;
  TP_AvgLatency : Z;
  ErrorRate : Q
}.

Record LatencyStats := {
  Min : Z; Max : Z; Mean : Z; StdDev : Z;
  P50 : Z; P75 : Z; P90 : Z; P95 : Z; P99 : Z; P999 : Z
}.

Record Snapshot := {
  TotalRequests : Z;
  SuccessRequests : Z;
  TotalErrors : Z;
  BytesReceived : Z;
  BytesSent : Z;
  Latency : LatencyStats;
  AvgLatency : Z;
  P99Latency : Z;
  ErrorsByType : gmap string Z;
  StatusCodes : gmap Z Z;
  Snap_Timestamp : Z
}.

(** The collector.  An [atomic.Int64] is its value; a map of counters
    [map[K]*atomic.Int64] is the map of their values. *)
Record Collector `{HistogramLib} := {
  totalRequests : Z;
  successRequests : Z;
  totalErrors : Z;
  bytesReceived : Z;
  bytesSent : Z;
  latencyHistogram : Histogram;
  errorsByType : gmap string Z;
  statusCodes : gmap Z Z;
  timeSeries : list TimePoint;
  lastSnapshot : Z;
  startTime : Z
}.

(** [func NewCollector() *Collector]; [t1], [t2] are its two readings of
    [time.Now()]. *)
Definition NewCollector `{HistogramLib} (t1 t2 : Z) : Collector := {|
  totalRequests := 0;
  successRequests := 0;
  totalErrors := 0;
  bytesReceived := 0;
  bytesSent := 0;
  latencyHistogram := hdr_New 1 3600000000 3;
  errorsByType := ∅;
  statusCodes := ∅;
  timeSeries := [];
  startTime := t1;
  lastSnapshot := t2
|}.

(** [func (c *Collector) RecordRequest(latency, bytesReceived, bytesSent, success)] *)
Definition RecordRequest `{HistogramLib} (c : Collector)
    (latency received sent : Z) (success : bool) : Collector := {|
  totalRequests := add64 (totalRequests c) 1;
  successRequests := if success then add64 (successRequests c) 1 else successRequests c;
  totalErrors := if success then totalErrors c else add64 (totalErrors c) 1;
  bytesReceived := add64 (bytesReceived c) received;
  bytesSent := add64 (bytesSent c) sent;
  latencyHistogram := hdr_RecordValue (latencyHistogram c) (Microseconds latency);
  errorsByType := errorsByType c;
  statusCodes := statusCodes c;
  timeSeries := timeSeries c;
  lastSnapshot := lastSnapshot c;
  startTime := startTime c
|}.

(** Look the counter up, create it at zero when absent, add one. *)
Definition bump {K} `{Countable K} (m : gmap K Z) (k : K) : gmap K Z :=
  <[k := add64 (default 0 (m !! k)) 1]> m.

(** [func (c *Collector) RecordError(errorType string, err error)] *)
Definition RecordError `{HistogramLib} (c : Collector) (errorType : string) : Collector := {|
  totalRequests := totalRequests c;
  successRequests := successRequests c;
  totalErrors := add64 (totalErrors c) 1;
  bytesReceived := bytesReceived c;
  bytesSent := bytesSent c;
  latencyHistogram := latencyHistogram c;
  errorsByType := bump (errorsByType c) errorType;
  statusCodes := statusCodes c;
  timeSeries := timeSeries c;
  lastSnapshot := lastSnapshot c;
  startTime := startTime c
|}.

(** [func (c *Collector) RecordStatusCode(code int)] *)
Definition RecordStatusCode `{HistogramLib} (c : Collector) (code : Z) : Collector := {|
  totalRequests := totalRequests c;
  successRequests := successRequests c;
  totalErrors := totalErrors c;
  bytesReceived := bytesReceived c;
  bytesSent := bytesSent c;
  latencyHistogram := latencyHistogram c;
  errorsByType := errorsByType c;
  statusCodes := bump (statusCodes c) code;
  timeSeries := timeSeries c;
  lastSnapshot := lastSnapshot c;
  startTime := startTime c
|}.

(** [func (c *Collector) calculateLatencyStats() LatencyStats] *)
Definition calculateLatencyStats `{HistogramLib} (c : Collector) : LatencyStats :=
  let hist := latencyHistogram c in {|
  Min := micros (hdr_Min hist);
  Max := micros (hdr_Max hist);
  Mean := micros (hdr_Mean hist);
  StdDev := micros (hdr_StdDev hist);
  P50 := micros (hdr_ValueAtQuantile hist 50);
  P75 := micros (hdr_ValueAtQuantile hist 75);
  P90 := micros (hdr_ValueAtQuantile hist 90);
  P95 := micros (hdr_ValueAtQuantile hist 95);
  P99 := micros (hdr_ValueAtQuantile hist 99);
  P999 := micros (hdr_ValueAtQuantile hist (999 # 10))
|}.

(** [func (c *Collector) getLastTotalRequests() int64]: both branches
    return 0. *)
Definition getLastTotalRequests `{HistogramLib} (c : Collector) : Z :=
  if (length (timeSeries c) =? 0)%nat then 0 else 0.

(** [func (c *Collector) recordTimePoint(snapshot Snapshot)]; [now] is its
    reading of [time.Now()]. *)
Definition recordTimePoint `{HistogramLib} (c : Collector) (snapshot : Snapshot) (now : Z)
  : Collector :=
  let duration := Seconds (time_Sub now (lastSnapshot c)) in
  if Qltb duration 1 then c
  else
    let requestsDelta := sub64 (TotalRequests snapshot) (getLastTotalRequests c) in
    let rps := (inject_Z requestsDelta / duration)%Q in
    let errorRate :=
      if 0 <? TotalRequests snapshot
      then (inject_Z (TotalErrors snapshot) / inject_Z (TotalRequests snapshot))%Q
      else 0%Q in
    let point := {| Timestamp := now; RPS := rps;
                    TP_AvgLatency := AvgLatency snapshot; ErrorRate := errorRate |} in
    {| totalRequests := totalRequests c;
       successRequests := successRequests c;
       totalErrors := totalErrors c;
       bytesReceived := bytesReceived c;
       bytesSent := bytesSent c;
       latencyHistogram := latencyHistogram c;
       errorsByType := errorsByType c;
       statusCodes := statusCodes c;
       timeSeries := timeSeries c ++ [point];
       lastSnapshot := now;
       startTime := startTime c |}.

(** The value copy [Snapshot] builds before it records a time point;
    [stamp] is its reading of [time.Now()]. *)
Definition takeSnapshot `{HistogramLib} (c : Collector) (stamp : Z) : Snapshot := {|
  TotalRequests := totalRequests c;
  SuccessRequests := successRequests c;
  TotalErrors := totalErrors c;
  BytesReceived := bytesReceived c;
  BytesSent := bytesSent c;
  ErrorsByType := errorsByType c;
  StatusCodes := statusCodes c;
  Snap_Timestamp := stamp;
  Latency := calculateLatencyStats c;
  AvgLatency := micros (hdr_Mean (latencyHistogram c));
  P99Latency := micros (hdr_ValueAtQuantile (latencyHistogram c) 99)
|}.

(** [func (c *Collector) Snapshot() Snapshot]: the snapshot returned and
    the collector afterwards. *)
Definition Snapshot_ `{HistogramLib} (c : Collector) (stamp now : Z) : Snapshot * Collector :=
  let snapshot := takeSnapshot c stamp in
  (snapshot, recordTimePoint c snapshot now).

(** [func (c *Collector) GetTimeSeries() []TimePoint] *)
Definition GetTimeSeries `{HistogramLib} (c : Collector) : list TimePoint := timeSeries c.

(** [func (c *Collector) Reset()] *)
Definition Reset `{HistogramLib} (c : Collector) (t1 t2 : Z) : Collector := {|
  totalRequests := 0;
  successRequests := 0;
  totalErrors := 0;
  bytesReceived := 0;
  bytesSent := 0;
  latencyHistogram := hdr_Reset (latencyHistogram c);
  errorsByType := ∅;
  statusCodes := ∅;
  timeSeries := [];
  startTime := t1;
  lastSnapshot := t2
|}.

(** *** Runs of the collector

    The public operations, each with the clock readings it takes. *)
Inductive Op :=
| OpRecordRequest (latency received sent : Z) (success : bool)
| OpRecordError (errorType : string)
| OpRecordStatusCode (code : Z)
| OpSnapshot (stamp now : Z)
| OpReset (t1 t2 : Z).

Definition step `{HistogramLib} (c : Collector) (op : Op) : Collector :=
  match op with
  | OpRecordRequest l r s ok => RecordRequest c l r s ok
  | OpRecordError k => RecordError c k
  | OpRecordStatusCode code => RecordStatusCode c code
  | OpSnapshot stamp now => (Snapshot_ c stamp now).2
  | OpReset t1 t2 => Reset c t1 t2
  end.

Definition run `{HistogramLib} (c : Collector) (ops : list Op) : Collector :=
  fold_left step ops c.

(** The readings of [time.Now()] taken along a run, in order. *)
Definition readings (op : Op) : list Z :=
  match op with
  | OpSnapshot stamp now => [stamp; now]
  | OpReset t1 t2 => [t1; t2]
  | _ => []
  end.

(** A clock that never goes back. *)
Fixpoint nondecreasing (ts : list Z) : Prop :=
  match ts with
  | [] => True
  | t :: rest => match rest with
                 | [] => True
                 | u :: _ => t <= u
                 end /\ nondecreasing rest
  end.

(** Consecutive points at least one second apart. *)
Fixpoint spaced (pts : list TimePoint) : Prop :=
  match pts with
  | [] => True
  | p :: rest => match rest with
                 | [] => True
                 | q :: _ => Timestamp p + Second <= Timestamp q
                 end /\ spaced rest
  end.

End Stats.

(** ** pkg/benchmark *)

Module Benchmark.

Import Validator Stats.

(** [RateLimiter]; the ticker is represented by its period. *)
Record RateLimiter := {
  rps : Z;
  interval : Z
}.

(** The outcome of a Go function that may panic. *)
Inductive Outcome (A : Type) :=
| Returns (a : A)
| Panics.
Arguments Returns {A} a.
Arguments Panics {A}.

(** [func NewRateLimiter(rps int) *RateLimiter]: the division panics on
    [rps = 0], [time.NewTicker] panics on a period that is not positive. *)
Definition NewRateLimiter (rps : Z) : Outcome RateLimiter :=
  if rps =? 0 then Panics
  else
    let interval := quot64 Second rps in
    if interval <=? 0 then Panics
    else Returns {| rps := rps; interval := interval |}.

(** The limiter [New] installs in the engine: [None] is the nil pointer
    left when [cfg.Load.RateLimit > 0] does not hold. *)
Definition New_rateLimiter (cfg : Config.Config) : Outcome (option RateLimiter) :=
  if 0 <? Config.RateLimit (Config.Load cfg) then
    match NewRateLimiter (Config.RateLimit (Config.Load cfg)) with
    | Returns r => Returns (Some r)
    | Panics => Panics
    end
  else Returns None.

(** What the world answers to one request: the results of
    [createRequest], [client.Do] and [io.ReadAll], as far as the executor
    gets.  [latency] is [time.Since(startTime)] taken after [client.Do];
    [contentLength] is [req.ContentLength]. *)
Inductive Exchange :=
| CreateFailed
| DispatchFailed (latency : Z)
| BodyReadFailed (latency : Z) (resp : Response)
| Completed (latency : Z) (resp : Response) (body : string) (contentLength : Z).

(** A call made on the collector. *)
Inductive Call :=
| CallRecordError (errorType : string)
| CallRecordRequest (latency received sent : Z) (success : bool)
| CallRecordStatusCode (code : Z).

Definition perform `{HistogramLib} (c : Collector) (call : Call) : Collector :=
  match call with
  | CallRecordError k => RecordError c k
  | CallRecordRequest l r s ok => RecordRequest c l r s ok
  | CallRecordStatusCode code => RecordStatusCode c code
  end.

(** [func (b *Benchmark) executeRequest(ctx, workerID)]: the calls it
    makes on [b.stats], in program order. *)
Definition executeRequest_calls `{RegexpLib} `{HeaderLib} (v : Validator) (x : Exchange)
  : list Call :=
  match x with
  | CreateFailed =>
      [CallRecordError "request_creation"]
  | DispatchFailed latency =>
      [CallRecordError "network"; CallRecordRequest latency 0 0 false]
  | BodyReadFailed latency _ =>
      [CallRecordError "body_read"; CallRecordRequest latency 0 0 false]
  | Completed latency resp body contentLength =>
      let validationErr := Validate v resp body in
      let success := bool_decide (validationErr = None) in
      (if negb success then [CallRecordError "validation"] else [])
      ++ [CallRecordRequest latency (Z.of_nat (String.length body)) contentLength success;
          CallRecordStatusCode (StatusCode resp)]
  end.

(** [executeRequest] as a transformer of the collector. *)
Definition executeRequest `{RegexpLib} `{HeaderLib} `{HistogramLib}
    (v : Validator) (c : Collector) (x : Exchange) : Collector :=
  fold_left perform (executeRequest_calls v x) c.

(** *** Ramp-up controller *)

(** The loop [for step := 0; step < Steps && ctx.Err() == nil; step++] of
    the controller goroutine.  [alive step] answers [ctx.Err() == nil] at
    the test before iteration [step]; [n] counts the iterations left.
    Each iteration yields the worker indices it sends on [workerControl];
    the result also carries the final [currentConcurrency]. *)
Fixpoint rampLoop (alive : Z -> bool) (endC stepC : Z) (n : nat) (step current : Z)
  : list (list Z) * Z :=
  match n with
  | O => ([], current)
  | S n' =>
      if alive step then
        let newConcurrency := add64 current stepC in
        let newConcurrency := if endC <? newConcurrency then endC else newConcurrency in
        let rest := rampLoop alive endC stepC n' (add64 step 1) newConcurrency in
        (seqZ current (newConcurrency - current) :: rest.1, rest.2)
      else ([], current)
  end.

Record RampSchedule := {
  stepDuration : Z;
  concurrencyStep : Z;
  poolSize : Z;
  initialBatch : list Z;
  tickBatches : list (list Z);
  finalConcurrency : Z
}.

Inductive RampRun :=
| RunsConstant
| RampPanics
| Ramps (s : RampSchedule).

(** [func (b *Benchmark) runRampUp(ctx)]: the activation schedule of the
    controller goroutine over a pool of [EndConcurrency] workers, each
    blocked on [<-workerControl] until a send releases it.  The division
    by [Steps] panics on zero and [time.NewTicker] panics on a period that
    is not positive. *)
Definition runRampUp (rampCfg : Config.RampUpConfig) (alive : Z -> bool) : RampRun :=
  if negb (Config.RampUp_Enabled rampCfg) then RunsConstant
  else if Config.Steps rampCfg =? 0 then RampPanics
  else
    let stepDuration := quot64 (Config.RampUp_Duration rampCfg) (Config.Steps rampCfg) in
    if stepDuration <=? 0 then RampPanics else
    let concurrencyStep :=
      quot64 (sub64 (Config.EndConcurrency rampCfg) (Config.StartConcurrency rampCfg))
             (Config.Steps rampCfg) in
    let currentConcurrency := Config.StartConcurrency rampCfg in
    let loop := rampLoop alive (Config.EndConcurrency rampCfg) concurrencyStep
                  (Z.to_nat (Config.Steps rampCfg)) 0 currentConcurrency in
    Ramps {| stepDuration := stepDuration;
             concurrencyStep := concurrencyStep;
             poolSize := Config.EndConcurrency rampCfg;
             initialBatch := seqZ 0 currentConcurrency;
             tickBatches := loop.1;
             finalConcurrency := loop.2 |}.

(** Workers released once the initial batch and the first [k] ticks have
    been sent: one worker per send. *)
Definition activatedAfter (s : RampSchedule) (k : nat) : Z :=
  Z.of_nat (length (initialBatch s) + length (concat (take k (tickBatches s)))).

Definition activatedTotal (s : RampSchedule) : Z :=
  activatedAfter s (length (tickBatches s)).

(** Pool workers still blocked on [<-workerControl] when the controller
    goroutine has returned; [wg.Wait()] waits for them. *)
Definition neverActivated (s : RampSchedule) : Z := poolSize s - activatedTotal s.

End Benchmark.

(** ** Stand-ins for the external packages

    Small executable instances of the three interfaces, used to run the
    model on concrete inputs. *)

Module Doubles.

Import Validator Stats.

(** Patterns are literal substrings; a pattern starting with an opening
    parenthesis does not compile. *)
#[export] Instance literal_regexp : RegexpLib := {|
  Regexp := string;
  regexp_Compile := fun p => if String.prefix "(" p then None else Some p;
  regexp_Match := fun re b => bytes_Contains b re;
  regexp_String := fun re => re
|}.

(** Header names are taken as already canonical. *)
#[export] Instance plain_headers : HeaderLib := {|
  CanonicalHeaderKey := fun k => k
|}.

(** The histogram keeps the recorded values; the mean is the truncated
    arithmetic mean, quantiles are not computed. *)
#[export] Instance list_histogram : HistogramLib := {|
  Histogram := list Z;
  hdr_New := fun _ _ _ => [];
  hdr_RecordValue := fun h x => x :: h;
  hdr_Reset := fun _ => [];
  hdr_Min := fun h => foldr Z.min 0 h;
  hdr_Max := fun h => foldr Z.max 0 h;
  hdr_Mean := fun h => Z.quot (foldr Z.add 0 h) (Z.of_nat (length h));
  hdr_StdDev := fun _ => 0;
  hdr_ValueAtQuantile := fun _ _ => 0
|}.

End Doubles.

(** ** Scenarios and specification-level notions

    Concrete configurations and runs, and the notions the properties below
    are stated with. *)

Import Validator Stats Benchmark Doubles.

(** Whether [Config.Validate] returns an error. *)
Definition rejects (c : Config.Config) : bool :=
  match Config.Validate c with
  | Some _ => true
  | None => false
  end.

(** A configuration that breaks none of the four listed rules but asks
    for distributed mode, as master, without any worker address. *)
Definition masterWithoutWorkers : Config.Config := {|
  Config.Target := {| Config.URL := "http://localhost:8080"; Config.Method := "GET";
                      Config.Headers := ∅; Config.Body := EmptyString; Config.Timeout := 30 * Second |};
  Config.Load := {| Config.Concurrency := 10; Config.Duration := 10 * Second;
                    Config.TotalRequests := 0; Config.RateLimit := 0;
                    Config.Load_Pattern := Config.LoadPatternConstant;
                    Config.RampUp := {| Config.RampUp_Enabled := false;
                                        Config.StartConcurrency := 0;
                                        Config.EndConcurrency := 0;
                                        Config.RampUp_Duration := 0;
                                        Config.Steps := 0 |};
                    Config.BurstMode := {| Config.Burst_Enabled := false;
                                           Config.BaseConcurrency := 0;
                                           Config.BurstConcurrency := 0;
                                           Config.BurstDuration := 0;
                                           Config.BurstInterval := 0 |} |};
  Config.Protocol := {| Config.HTTP2Enabled := false; Config.HTTP3Enabled := false;
                        Config.KeepAlive := true; Config.IdleTimeout := 90 * Second |};
  Config.Validation := {| Config.StatusCodes := [200]; Config.ContentPatterns := [];
                          Config.ResponseTimeMax := 5 * Second;
                          Config.HeaderValidation := ∅;
                          Config.Body_Validation :=
                            {| Config.MinSize := 0; Config.MaxSize := 0;
                               Config.Contains := []; Config.NotContains := [];
                               Config.JSONSchema := EmptyString |} |};
  Config.Distributed := {| Config.Distributed_Enabled := true; Config.WorkerMode := false;
                           Config.MasterAddress := EmptyString; Config.WorkerAddresses := [] |}
|}.

(** The validation block of [config.NewDefault]. *)
Definition defaultValidation : Config.ValidationConfig :=
  Config.Validation masterWithoutWorkers.

(** A response with the given status and no header. *)
Definition response (code : Z) : Response := {| StatusCode := code; Header := ∅ |}.

(** RPS of a point in the specification's words: the requests counted
    since the previous point, over the seconds elapsed since it. *)
Definition intervalRPS (previousTotal total elapsed : Z) : Q :=
  inject_Z (total - previousTotal) / Seconds elapsed.

(** Five successful requests, then a snapshot after one second and another
    one second later with no request in between. *)
Definition fiveThenIdle : list Op :=
  replicate 5 (OpRecordRequest (10 * Microsecond) 2 0 true)
  ++ [OpSnapshot Second Second; OpSnapshot (2 * Second) (2 * Second)].

(** A context that is never cancelled. *)
Definition always (_ : Z) : bool := true.

(** From 0 to 10 workers over 30 s in 3 steps. *)
Definition rampTenInThree : Config.RampUpConfig := {|
  Config.RampUp_Enabled := true;
  Config.StartConcurrency := 0;
  Config.EndConcurrency := 10;
  Config.RampUp_Duration := 30 * Second;
  Config.Steps := 3
|}.

(** From 10 to 100 workers over 30 s in 10 steps (scenario 5 of the
    specification). *)
Definition rampTenToHundred : Config.RampUpConfig := {|
  Config.RampUp_Enabled := true;
  Config.StartConcurrency := 10;
  Config.EndConcurrency := 100;
  Config.RampUp_Duration := 30 * Second;
  Config.Steps := 10
|}.

(** Workers released by a whole ramp, when it runs. *)
Definition activatedBy (r : RampRun) : option Z :=
  match r with
  | Ramps s => Some (activatedTotal s)
  | _ => None
  end.

(** The calls to [RecordStatusCode]. *)
Definition isStatusCall (call : Call) : bool :=
  match call with
  | CallRecordStatusCode _ => true
  | _ => false
  end.

(** [cfg] with its list of patterns replaced. *)
Definition withPatterns (cfg : Config.ValidationConfig) (ps : list string)
  : Config.ValidationConfig := {|
  Config.StatusCodes := Config.StatusCodes cfg;
  Config.ContentPatterns := ps;
  Config.ResponseTimeMax := Config.ResponseTimeMax cfg;
  Config.HeaderValidation := Config.HeaderValidation cfg;
  Config.Body_Validation := Config.Body_Validation cfg
|}.

(** A configuration whose second pattern does not compile. *)
Definition oneBadPattern : Config.ValidationConfig :=
  withPatterns defaultValidation ["ok"; "(unclosed"; "done"]%string.

(** The zero value of [config.ValidationConfig]. *)
Definition noValidation : Config.ValidationConfig := {|
  Config.StatusCodes := [];
  Config.ContentPatterns := [];
  Config.ResponseTimeMax := 0;
  Config.HeaderValidation := ∅;
  Config.Body_Validation :=
    {| Config.MinSize := 0; Config.MaxSize := 0;
       Config.Contains := []; Config.NotContains := []; Config.JSONSchema := EmptyString |}
|}.

(** The state invariant behind the spacing: the series is spaced, its last
    point carries [lastSnapshot], and nothing in it is earlier than one
    second after [lo]. *)
Definition tracked `{HistogramLib} (lo : Z) (c : Collector) : Prop :=
  spaced (timeSeries c)
  /\ (forall p, last (timeSeries c) = Some p -> Timestamp p = lastSnapshot c)
  /\ Forall (fun p => lo + Second <= Timestamp p) (timeSeries c)
  /\ lo <= lastSnapshot c.

(** * Properties *)

(** ** Wrap-around *)

Lemma wrap64_id z : in_range z -> wrap64 z = z.
Proof.
  unfold in_range, min_int, max_int, wrap64. intros Hz.
  rewrite Z.mod_small; lia.
Qed.

Lemma wrap64_in_range z : in_range (wrap64 z).
Proof.
  unfold in_range, min_int, max_int, wrap64.
  pose proof (Z.mod_pos_bound (z + 2 ^ 63) (2 ^ 64) ltac:(lia)). lia.
Qed.

(** ** Configuration validation *)

(** C7, as stated, fails: [masterWithoutWorkers] has a URL, a positive
    concurrency, a positive duration and a single protocol, and
    [Config.Validate] still returns an error. *)
Lemma C7_listed_rules_not_exhaustive :
  Config.listed_violation masterWithoutWorkers = false /\
  Config.Validate masterWithoutWorkers = Some Config.ErrNoWorkerAddresses /\
  ~ (forall c, rejects c = Config.listed_violation c).
Proof.
  split; [reflexivity|]. split; [reflexivity|].
  intros Hall. specialize (Hall masterWithoutWorkers). discriminate Hall.
Qed.

(** C7, amended: [Config.Validate] returns an error exactly when the URL is
    empty, or concurrency is not positive, or neither a positive duration
    nor a positive total is set, or HTTP/2 and HTTP/3 are both enabled, or
    distributed mode is enabled outside worker mode with no worker
    address. *)
Theorem C7_Validate_rejects_exactly (c : Config.Config) :
  rejects c = Config.listed_violation c || Config.distributed_violation c.
Proof.
  unfold rejects, Config.Validate, Config.listed_violation, Config.distributed_violation.
  destruct (String.eqb _ _); [reflexivity|].
  destruct (Z.leb_spec (Config.Concurrency (Config.Load c)) 0); [reflexivity|].
  destruct (Z.leb_spec (Config.Duration (Config.Load c)) 0),
           (Z.leb_spec (Config.TotalRequests (Config.Load c)) 0),
           (Z.ltb_spec 0 (Config.Duration (Config.Load c))),
           (Z.ltb_spec 0 (Config.TotalRequests (Config.Load c)));
    try lia; simpl; try reflexivity;
    destruct (Config.HTTP2Enabled (Config.Protocol c)),
             (Config.HTTP3Enabled (Config.Protocol c)); simpl; try reflexivity;
    destruct (Config.Distributed_Enabled (Config.Distributed c)),
             (Config.WorkerMode (Config.Distributed c)),
             (length (Config.WorkerAddresses (Config.Distributed c)) =? 0)%nat;
    reflexivity.
Qed.

(** ** The executor and the collector's counters *)

(** [RecordRequest] adds one to the total and to exactly one of the
    success and error counters. *)
Lemma RecordRequest_counts `{HistogramLib} (c : Collector) l r s ok :
  totalRequests (RecordRequest c l r s ok) = add64 (totalRequests c) 1 /\
  successRequests (RecordRequest c l r s ok) =
    (if ok then add64 (successRequests c) 1 else successRequests c) /\
  totalErrors (RecordRequest c l r s ok) =
    (if ok then totalErrors c else add64 (totalErrors c) 1).
Proof. repeat split. Qed.

(** C1 fails on the code: one request whose dispatch fails leaves the
    collector, and the snapshot taken of it, with [total = 1],
    [success = 0] and [errors = 2], whatever the validator and the
    histogram are.  A request that cannot be created leaves [total = 0]
    and [errors = 1]. *)
Theorem C1_failed_request_counted_twice `{RegexpLib} `{HeaderLib} `{HistogramLib}
    (v : Validator) (latency stamp now : Z) :
  let failed := executeRequest v (NewCollector 0 0) (DispatchFailed latency) in
  let snap := (Snapshot_ failed stamp now).1 in
  let unbuilt := executeRequest v (NewCollector 0 0) CreateFailed in
  let snap' := (Snapshot_ unbuilt stamp now).1 in
  (TotalRequests snap = 1 /\ SuccessRequests snap = 0 /\ TotalErrors snap = 2) /\
  SuccessRequests snap + TotalErrors snap <> TotalRequests snap /\
  (TotalRequests snap' = 0 /\ SuccessRequests snap' = 0 /\ TotalErrors snap' = 1).
Proof.
  cbn. repeat split; discriminate.
Qed.

(** ** Time series *)

(** [duration < 1.0] in [recordTimePoint] is a comparison of whole
    nanoseconds. *)
Lemma too_soon_iff (now last : Z) :
  Qltb (Seconds (time_Sub now last)) 1 = true <-> now - last < Second.
Proof.
  unfold Qltb, Seconds, time_Sub, Second, min_int, max_int.
  rewrite negb_true_iff, <- not_true_iff_false, Qle_bool_iff.
  unfold Qle, Qdiv, Qmult, Qinv, inject_Z. simpl. lia.
Qed.

(** What the code stores: when a point is appended, its RPS is the
    cumulative total over the seconds elapsed, since
    [getLastTotalRequests] is constantly 0. *)
Lemma recordTimePoint_appends `{HistogramLib} (c : Collector) (snap : Snapshot) (now : Z) :
  Second <= now - lastSnapshot c ->
  exists p,
    timeSeries (recordTimePoint c snap now) = timeSeries c ++ [p] /\
    lastSnapshot (recordTimePoint c snap now) = now /\
    Timestamp p = now /\
    RPS p = (inject_Z (sub64 (TotalRequests snap) 0)
             / Seconds (time_Sub now (lastSnapshot c)))%Q.
Proof.
  intros Hge. unfold recordTimePoint.
  destruct (Qltb _ 1) eqn:E.
  - apply too_soon_iff in E. lia.
  - eexists. repeat split.
    unfold getLastTotalRequests. simpl. destruct (_ =? _)%nat; reflexivity.
Qed.

Lemma recordTimePoint_skips `{HistogramLib} (c : Collector) (snap : Snapshot) (now : Z) :
  now - lastSnapshot c < Second -> recordTimePoint c snap now = c.
Proof.
  intros Hlt. unfold recordTimePoint.
  apply too_soon_iff in Hlt. rewrite Hlt. reflexivity.
Qed.

(** C2 fails on the code: on [fiveThenIdle] the second point covers an
    interval of one second in which no request was made; the code stores
    RPS 5 for it (the cumulative total), the delta over the interval
    is 0. *)
Theorem C2_second_point_uses_cumulative_total `{HistogramLib} :
  exists p1 p2,
    timeSeries (run (NewCollector 0 0) fiveThenIdle) = [p1; p2] /\
    Timestamp p1 = Second /\ Timestamp p2 = 2 * Second /\
    (RPS p1 == 5)%Q /\
    (RPS p2 == 5)%Q /\
    (intervalRPS 5 5 (Timestamp p2 - Timestamp p1) == 0)%Q /\
    ~ (RPS p2 == intervalRPS 5 5 (Timestamp p2 - Timestamp p1))%Q.
Proof.
  eexists _, _. split; [reflexivity|]. cbn.
  repeat split; try reflexivity; discriminate.
Qed.

(** ** Ramp-up *)

Example ramp_divisible_reaches_end :
  activatedBy (runRampUp rampTenToHundred always) = Some 100.
Proof. vm_compute. reflexivity. Qed.

(** C3 fails on the code: with [start = 0], [end = 10], [S = 3] every tick
    releases [10 / 3 = 3] workers, the last one included; after the three
    ticks 9 workers have been released, and worker 9 of the pool of 10 is
    never sent its activation. *)
Theorem C3_remainder_never_activated :
  exists s,
    runRampUp rampTenInThree always = Ramps s /\
    stepDuration s = 10 * Second /\
    concurrencyStep s = 3 /\
    initialBatch s = [] /\
    tickBatches s = [[0; 1; 2]; [3; 4; 5]; [6; 7; 8]] /\
    finalConcurrency s = 9 /\
    activatedTotal s = 9 /\
    activatedTotal s <> Config.EndConcurrency rampTenInThree /\
    neverActivated s = 1.
Proof.
  eexists. split; [vm_compute; reflexivity|].
  vm_compute. repeat split; discriminate.
Qed.

(** What the code does do: the number of released workers never
    decreases from one tick to the next. *)
Lemma activatedAfter_mono (s : RampSchedule) (k : nat) :
  activatedAfter s k <= activatedAfter s (S k).
Proof.
  unfold activatedAfter.
  enough (length (concat (take k (tickBatches s)))
          <= length (concat (take (S k) (tickBatches s))))%nat by lia.
  generalize (tickBatches s). induction k as [|k IH]; intros [|b l]; simpl; try lia.
  rewrite !length_app. specialize (IH l). simpl in IH. lia.
Qed.

(** ** Status codes recorded by the executor *)

(** C4, as stated, fails: when reading the body fails the executor
    records the error and the failed request and returns; no status code is
    recorded although a response with status 200 was received. *)
Lemma C4_body_read_failure_records_no_status :
  executeRequest_calls (New defaultValidation) (BodyReadFailed 1000 (response 200))
    = [CallRecordError "body_read"; CallRecordRequest 1000 0 0 false] /\
  filter isStatusCall
    (executeRequest_calls (New defaultValidation) (BodyReadFailed 1000 (response 200))) = [] /\
  statusCodes (executeRequest (New defaultValidation) (NewCollector 0 0)
                 (BodyReadFailed 1000 (response 200))) = ∅.
Proof. repeat split. Qed.

(** C4, amended: [RecordStatusCode] is called exactly once, with the
    status of the response, for every request whose body was read to the
    end, whether validation then passes or fails; it is not called when the
    request cannot be created, when dispatch fails, or when reading the
    body fails. *)
Theorem C4_status_recorded_iff_body_read `{RegexpLib} `{HeaderLib} `{HistogramLib}
    (v : Validator) (c : Collector) (x : Exchange) :
  filter isStatusCall (executeRequest_calls v x) =
    match x with
    | Completed _ resp _ _ => [CallRecordStatusCode (StatusCode resp)]
    | _ => []
    end
  /\ statusCodes (executeRequest v c x) =
    match x with
    | Completed _ resp _ _ => bump (statusCodes c) (StatusCode resp)
    | _ => statusCodes c
    end.
Proof.
  destruct x as [|latency|latency resp|latency resp body contentLength];
    try (split; reflexivity).
  unfold executeRequest, executeRequest_calls.
  destruct (Validate v resp body); split; reflexivity.
Qed.

(** ** The validator *)

Section validator_facts.

Context `{RegexpLib} `{HeaderLib}.

Lemma compileAll_acc (ps : list string) (acc : list Regexp) (log : list string) :
  fold_left compileStep ps (acc, log) = (acc ++ omap regexp_Compile ps, log ++ ps).
Proof.
  revert acc log. induction ps as [|p ps IH]; intros acc log; simpl.
  - by rewrite !app_nil_r.
  - unfold compileStep at 2. simpl.
    destruct (regexp_Compile p); rewrite IH; simpl; by rewrite <- !app_assoc.
Qed.

Lemma contentPatterns_New (cfg : Config.ValidationConfig) :
  contentPatterns (New cfg) = omap regexp_Compile (Config.ContentPatterns cfg).
Proof. unfold New, compileAll. simpl. by rewrite compileAll_acc. Qed.

Lemma statusCodeMap_lookup (l : list Z) (m0 : gmap Z bool) (code : Z) :
  fold_left (fun m c => <[c := true]> m) l m0 !! code =
    if decide (code ∈ l) then Some true else m0 !! code.
Proof.
  revert m0. induction l as [|c l IH]; intros m0.
  - destruct (decide (code ∈ [])) as [Hin|_]; [|done]. by apply not_elem_of_nil in Hin.
  - change (fold_left (fun m c => <[c := true]> m) l (<[c := true]> m0) !! code =
            if decide (code ∈ c :: l) then Some true else m0 !! code).
    rewrite IH.
    destruct (decide (code ∈ l)) as [Hin|Hout], (decide (code ∈ c :: l)) as [Hin'|Hout'];
      try done.
    + exfalso. apply Hout'. by right.
    + apply elem_of_cons in Hin' as [->|?]; [|done]. by rewrite lookup_insert_eq.
    + rewrite lookup_insert_ne; [done|]. intros ->. apply Hout'. by left.
Qed.

Lemma statusCodeMap_size (l : list Z) :
  (size (fold_left (fun m c => <[c := true]> m) l (∅ : gmap Z bool)) =? 0)%nat =
    match l with [] => true | _ => false end.
Proof.
  destruct l as [|c l]; [done|].
  apply Nat.eqb_neq. rewrite map_size_non_empty_iff. intros Hempty.
  pose proof (statusCodeMap_lookup (c :: l) ∅ c) as Hc.
  rewrite Hempty, lookup_empty, decide_True in Hc; [done | by left].
Qed.

Lemma firstError_reported {A} (check : A -> option ValidationError) (ok : A -> bool)
    (c : Check) (l : list A) :
  (forall x, reported <$> check x = if ok x then None else Some (expected c)) ->
  reported <$> firstError check l = if forallb ok l then None else Some (expected c).
Proof.
  intros Hcheck. induction l as [|x l IH]; simpl; [done|].
  specialize (Hcheck x). destruct (check x), (ok x); simpl in *; try done.
Qed.

Lemma forallb_compiled (body : string) (ps : list string) :
  forallb (fun re => regexp_Match re body) (omap regexp_Compile ps) =
  forallb (fun p => match regexp_Compile p with
                    | Some re => regexp_Match re body
                    | None => true
                    end) ps.
Proof.
  induction ps as [|p ps IH]; simpl; [done|].
  destruct (regexp_Compile p); simpl; [f_equal|]; exact IH.
Qed.

Lemma validateStatusCode_reported (cfg : Config.ValidationConfig) resp body latency :
  reported <$> validateStatusCode (New cfg) (StatusCode resp) =
    if check_passes cfg resp body latency CheckStatus then None
    else Some (expected CheckStatus).
Proof.
  unfold validateStatusCode, check_passes. simpl.
  rewrite statusCodeMap_size, statusCodeMap_lookup, lookup_empty.
  destruct (Config.StatusCodes cfg) as [|c l]; [done|].
  destruct (decide (StatusCode resp ∈ c :: l)) as [Hin|Hout]; simpl.
  - by rewrite bool_decide_eq_true_2.
  - by rewrite bool_decide_eq_false_2.
Qed.

Lemma validateHeaders_reported (cfg : Config.ValidationConfig) resp body latency :
  reported <$> validateHeaders (New cfg) (Header resp) =
    if check_passes cfg resp body latency CheckHeaders then None
    else Some (expected CheckHeaders).
Proof.
  unfold validateHeaders. simpl.
  rewrite (firstError_reported _
             (fun entry => String.eqb (Header_Get (Header resp) entry.1) entry.2) CheckHeaders).
  2:{ intros [k e]. unfold checkHeader. simpl. by destruct (String.eqb _ e). }
  destruct (forallb _ _) eqn:Hall.
  - rewrite bool_decide_eq_true_2; [done|].
    intros k e Hke. rewrite forallb_forall in Hall.
    specialize (Hall (k, e)). simpl in Hall. apply String.eqb_eq, Hall.
    by apply list_elem_of_In, elem_of_map_to_list.
  - rewrite bool_decide_eq_false_2; [done|].
    intros Hforall. apply not_true_iff_false in Hall. apply Hall.
    apply forallb_forall. intros [k e] Hin. simpl. apply String.eqb_eq, Hforall.
    by apply elem_of_map_to_list, list_elem_of_In.
Qed.

Lemma required_reported (body : string) (l : list string) :
  reported <$> firstError (requireContent body) l =
    if forallb (bytes_Contains body) l then None else Some (expected CheckRequired).
Proof.
  apply firstError_reported. intros x. unfold requireContent.
  destruct (bytes_Contains body x); reflexivity.
Qed.

Lemma forbidden_reported (body : string) (l : list string) :
  reported <$> firstError (forbidContent body) l =
    if forallb (fun s => negb (bytes_Contains body s)) l
    then None else Some (expected CheckForbidden).
Proof.
  apply firstError_reported. intros x. unfold forbidContent.
  destruct (bytes_Contains body x); reflexivity.
Qed.

Lemma regex_reported (body : string) (ps : list string) :
  reported <$> firstError (requireMatch body) (omap regexp_Compile ps) =
    if forallb (fun p => match regexp_Compile p with
                         | Some re => regexp_Match re body
                         | None => true
                         end) ps
    then None else Some (expected CheckRegex).
Proof.
  rewrite <- forallb_compiled. apply firstError_reported. intros x. unfold requireMatch.
  destruct (regexp_Match x body); reflexivity.
Qed.

Lemma validateBody_reported (cfg : Config.ValidationConfig) resp body latency :
  reported <$> validateBody (New cfg) body =
    expected <$> first_failure [CheckBodySize; CheckRequired; CheckForbidden; CheckRegex]
                   cfg resp body latency.
Proof.
  unfold validateBody, first_failure. rewrite contentPatterns_New.
  cbn [List.find check_passes config New].
  set (bv := Config.Body_Validation cfg). set (n := Z.of_nat (String.length body)).
  pose proof (required_reported body (Config.Contains bv)) as Hreq.
  pose proof (forbidden_reported body (Config.NotContains bv)) as Hforb.
  pose proof (regex_reported body (Config.ContentPatterns cfg)) as Hre.
  destruct (Z.ltb_spec 0 (Config.MinSize bv)), (Z.ltb_spec n (Config.MinSize bv)),
    (Z.leb_spec (Config.MinSize bv) 0), (Z.leb_spec (Config.MinSize bv) n);
    try lia; simpl; try done;
  (destruct (Z.ltb_spec 0 (Config.MaxSize bv)), (Z.ltb_spec (Config.MaxSize bv) n),
    (Z.leb_spec (Config.MaxSize bv) 0), (Z.leb_spec n (Config.MaxSize bv));
    try lia; simpl; try done).
  all: destruct (firstError _ (Config.Contains bv)), (forallb _ (Config.Contains bv));
       simpl in *; try done.
  all: destruct (firstError _ (Config.NotContains bv)), (forallb _ (Config.NotContains bv));
       simpl in *; try done.
  all: destruct (firstError _ (omap _ _)), (forallb _ (Config.ContentPatterns cfg));
       simpl in *; done.
Qed.

End validator_facts.

Lemma Validate_reported `{RegexpLib} `{HeaderLib}
    (cfg : Config.ValidationConfig) (resp : Response) (body : string) (latency : Z) :
  reported <$> Validate (New cfg) resp body =
    expected <$> first_failure checks_basic cfg resp body latency.
Proof.
  pose proof (validateStatusCode_reported cfg resp body latency) as Hstatus.
  pose proof (validateHeaders_reported cfg resp body latency) as Hheaders.
  pose proof (validateBody_reported cfg resp body latency) as Hbody.
  unfold Validate, first_failure, checks_basic in *. cbn [List.find] in *.
  set (pass := check_passes cfg resp body latency) in *. clearbody pass.
  destruct (validateStatusCode _ _), (pass CheckStatus);
    simpl in Hstatus |- *; try done.
  destruct (validateHeaders _ _), (pass CheckHeaders);
    simpl in Hheaders |- *; try done.
Qed.

Lemma find_app_None {A} (f : A -> bool) (l1 l2 : list A) :
  List.find f l1 = None -> List.find f (l1 ++ l2) = List.find f l2.
Proof.
  induction l1 as [|x l1 IH]; simpl; [done|]. destruct (f x); [done | exact IH].
Qed.

Lemma find_app_Some {A} (f : A -> bool) (l1 l2 : list A) (x : A) :
  List.find f l1 = Some x -> List.find f (l1 ++ l2) = Some x.
Proof.
  induction l1 as [|y l1 IH]; simpl; [done|]. destruct (f y); [done | exact IH].
Qed.

Lemma find_None_forallb {A} (f : A -> bool) (l : list A) :
  List.find (fun x => negb (f x)) l = None <-> forallb f l = true.
Proof.
  induction l as [|x l IH]; simpl; [done|]. destruct (f x); simpl; [exact IH | done].
Qed.

Lemma ValidateWithLatency_reported `{RegexpLib} `{HeaderLib}
    (cfg : Config.ValidationConfig) (resp : Response) (body : string) (latency : Z) :
  reported <$> ValidateWithLatency (New cfg) resp body latency =
    expected <$> first_failure checks_with_latency cfg resp body latency.
Proof.
  pose proof (Validate_reported cfg resp body latency) as Hbasic.
  unfold ValidateWithLatency, first_failure, checks_with_latency in *.
  destruct (List.find _ checks_basic) as [c|] eqn:Hfind.
  - rewrite (find_app_Some _ _ _ _ Hfind).
    destruct (Validate _ _ _); simpl in *; done.
  - rewrite (find_app_None _ _ _ Hfind).
    destruct (Validate _ _ _); simpl in *; [done|].
    destruct (Z.ltb_spec 0 (Config.ResponseTimeMax cfg)),
      (Z.ltb_spec (Config.ResponseTimeMax cfg) latency),
      (Z.leb_spec (Config.ResponseTimeMax cfg) 0),
      (Z.leb_spec latency (Config.ResponseTimeMax cfg)); try lia; done.
Qed.

Lemma fmap_None_iff {A B} (f : A -> B) (o : option A) : f <$> o = None <-> o = None.
Proof. destruct o; simpl; split; done. Qed.

(** C5: on a validator built by [New], [Validate] reports the first check
    that fails in the order status, headers, body size, required
    substrings, forbidden substrings, regex patterns, with that check's
    kind and a message of that check; [ValidateWithLatency] runs the same
    six and then the latency check; each returns no error exactly when
    every check of its list passes. *)
Theorem C5_first_failing_check_reported `{RegexpLib} `{HeaderLib}
    (cfg : Config.ValidationConfig) (resp : Response) (body : string) (latency : Z) :
  (reported <$> Validate (New cfg) resp body =
     expected <$> first_failure checks_basic cfg resp body latency)
  /\ (reported <$> ValidateWithLatency (New cfg) resp body latency =
     expected <$> first_failure checks_with_latency cfg resp body latency)
  /\ (Validate (New cfg) resp body = None
      <-> forallb (check_passes cfg resp body latency) checks_basic = true)
  /\ (ValidateWithLatency (New cfg) resp body latency = None
      <-> forallb (check_passes cfg resp body latency) checks_with_latency = true).
Proof.
  pose proof (Validate_reported cfg resp body latency) as Hbasic.
  pose proof (ValidateWithLatency_reported cfg resp body latency) as Hlat.
  split; [exact Hbasic|]. split; [exact Hlat|]. split.
  - rewrite <- find_None_forallb. fold (first_failure checks_basic cfg resp body latency).
    rewrite <- (fmap_None_iff reported), Hbasic. apply fmap_None_iff.
  - rewrite <- find_None_forallb.
    fold (first_failure checks_with_latency cfg resp body latency).
    rewrite <- (fmap_None_iff reported), Hlat. apply fmap_None_iff.
Qed.

(** *** Patterns that do not compile *)

Lemma firstError_Some {A} (check : A -> option ValidationError) (l : list A)
    (e : ValidationError) :
  firstError check l = Some e -> exists x, x ∈ l /\ check x = Some e.
Proof.
  induction l as [|x l IH]; simpl; [done|].
  destruct (check x) as [e'|] eqn:Hx; simpl.
  - intros [= <-]. exists x. split; [by left | done].
  - intros Hrest. destruct (IH Hrest) as (y & Hy & Hcheck).
    exists y. split; [by right | done].
Qed.

Lemma firstError_ErrType {A} (check : A -> option ValidationError) (l : list A)
    (K : string) (e : ValidationError) :
  (forall x e', check x = Some e' -> ErrType e' = K) ->
  firstError check l = Some e -> ErrType e = K.
Proof.
  intros Hcheck Hsome. apply firstError_Some in Hsome as (x & _ & Hx). by eapply Hcheck.
Qed.

Lemma Validate_same_compiled `{RegexpLib} `{HeaderLib}
    (cfg : Config.ValidationConfig) (ps : list string) :
  omap regexp_Compile ps = omap regexp_Compile (Config.ContentPatterns cfg) ->
  forall resp body,
    Validate (New (withPatterns cfg ps)) resp body = Validate (New cfg) resp body.
Proof.
  intros Hsame resp body.
  unfold Validate, validateStatusCode, validateHeaders, validateBody.
  rewrite !contentPatterns_New. simpl. by rewrite Hsame.
Qed.

Lemma content_pattern_origin `{RegexpLib} `{HeaderLib}
    (cfg : Config.ValidationConfig) (resp : Response) (body : string) (e : ValidationError) :
  Validate (New cfg) resp body = Some e ->
  ErrType e = "content_pattern"%string ->
  exists p re,
    p ∈ Config.ContentPatterns cfg /\ regexp_Compile p = Some re /\
    regexp_Match re body = false /\
    ErrMessage e = MsgPatternMismatch (regexp_String re).
Proof.
  unfold Validate. intros Hval Hkind.
  destruct (validateStatusCode _ _) as [e1|] eqn:Hs; simpl in Hval.
  { injection Hval as <-. unfold validateStatusCode in Hs.
    repeat match type of Hs with context [if ?b then _ else _] => destruct b end;
      try discriminate. injection Hs as <-. discriminate Hkind. }
  destruct (validateHeaders _ _) as [e2|] eqn:Hh; simpl in Hval.
  { injection Hval as <-. unfold validateHeaders in Hh.
    apply (firstError_ErrType _ _ "header") in Hh; [rewrite Hh in Hkind; discriminate|].
    intros [k x] e'. unfold checkHeader.
    destruct (negb _); [intros [= <-]; reflexivity | discriminate]. }
  unfold validateBody in Hval. rewrite contentPatterns_New in Hval.
  repeat match type of Hval with context [if ?b then _ else _] => destruct b end;
    try (injection Hval as <-; discriminate Hkind).
  destruct (firstError (requireContent body) _) as [e3|] eqn:Hreq; simpl in Hval.
  { injection Hval as <-.
    apply (firstError_ErrType _ _ "body_content") in Hreq;
      [rewrite Hreq in Hkind; discriminate|].
    intros x e'. unfold requireContent.
    destruct (negb _); [intros [= <-]; reflexivity | discriminate]. }
  destruct (firstError (forbidContent body) _) as [e4|] eqn:Hforb; simpl in Hval.
  { injection Hval as <-.
    apply (firstError_ErrType _ _ "body_content") in Hforb;
      [rewrite Hforb in Hkind; discriminate|].
    intros x e'. unfold forbidContent.
    destruct (bytes_Contains _ _); [intros [= <-]; reflexivity | discriminate]. }
  apply firstError_Some in Hval as (re & Hin & Hcheck).
  apply list_elem_of_omap in Hin as (p & Hp & Hcomp).
  exists p, re. unfold requireMatch in Hcheck.
  destruct (regexp_Match re body) eqn:Hm; simpl in Hcheck; [discriminate|].
  injection Hcheck as <-. done.
Qed.

(** C8: [New] passes each configured pattern to [regexp.Compile] once, in
    order; a configured pattern that does not compile changes nothing:
    [Validate] and [ValidateWithLatency] answer as they would had the
    pattern been left out of the configuration, and an error of kind
    [content_pattern] always comes from a configured pattern that
    compiled and does not match the body. *)
Theorem C8_uncompilable_pattern_discarded `{RegexpLib} `{HeaderLib}
    (cfg : Config.ValidationConfig) (before after : list string) (bad : string) :
  Config.ContentPatterns cfg = before ++ bad :: after ->
  regexp_Compile bad = None ->
  New_compile_calls cfg = Config.ContentPatterns cfg
  /\ contentPatterns (New cfg) = omap regexp_Compile (before ++ after)
  /\ (forall resp body,
        Validate (New cfg) resp body
        = Validate (New (withPatterns cfg (before ++ after))) resp body)
  /\ (forall resp body latency,
        ValidateWithLatency (New cfg) resp body latency
        = ValidateWithLatency (New (withPatterns cfg (before ++ after))) resp body latency)
  /\ (forall resp body e,
        Validate (New cfg) resp body = Some e ->
        ErrType e = "content_pattern"%string ->
        exists p re,
          p ∈ Config.ContentPatterns cfg /\ p <> bad /\ regexp_Compile p = Some re /\
          regexp_Match re body = false /\
          ErrMessage e = MsgPatternMismatch (regexp_String re)).
Proof.
  intros Hcfg Hbad.
  assert (Hsame : omap regexp_Compile (before ++ after)
                  = omap regexp_Compile (Config.ContentPatterns cfg)).
  { rewrite Hcfg, !omap_app. simpl. by rewrite Hbad. }
  split; [|split; [|split; [|split]]].
  - unfold New_compile_calls, compileAll. by rewrite compileAll_acc.
  - by rewrite contentPatterns_New, Hsame.
  - intros resp body. symmetry. by apply Validate_same_compiled.
  - intros resp body latency. unfold ValidateWithLatency.
    by rewrite (Validate_same_compiled cfg (before ++ after) Hsame).
  - intros resp body e Hval Hkind.
    destruct (content_pattern_origin cfg resp body e Hval Hkind)
      as (p & re & Hin & Hcomp & Hmatch & Hmsg).
    exists p, re. repeat split; try done. intros ->. congruence.
Qed.

Lemma C8_uncompilable_pattern_discarded_witness :
  New_compile_calls oneBadPattern = ["ok"; "(unclosed"; "done"]%string
  /\ contentPatterns (New oneBadPattern) = ["ok"; "done"]%string
  /\ (forall resp body,
        Validate (New oneBadPattern) resp body
        = Validate (New (withPatterns oneBadPattern ["ok"; "done"]%string)) resp body)
  /\ (forall resp body latency,
        ValidateWithLatency (New oneBadPattern) resp body latency
        = ValidateWithLatency (New (withPatterns oneBadPattern ["ok"; "done"]%string))
            resp body latency)
  /\ (forall resp body e,
        Validate (New oneBadPattern) resp body = Some e ->
        ErrType e = "content_pattern"%string ->
        exists p re,
          p ∈ Config.ContentPatterns oneBadPattern /\ p <> "(unclosed"%string /\
          regexp_Compile p = Some re /\
          regexp_Match re body = false /\
          ErrMessage e = MsgPatternMismatch (regexp_String re)).
Proof.
  exact (C8_uncompilable_pattern_discarded oneBadPattern
           ["ok"%string] ["done"%string] "(unclosed" eq_refl eq_refl).
Defined.

(** *** A validator with nothing configured *)

(** C10: when no status code, header equality, size bound, required or
    forbidden substring, or pattern is configured, [Validate] returns no
    error for any response and body, and the executor counts every request
    whose body was read as a success: one [RecordRequest] with
    [success = true], no [RecordError]. *)
Theorem C10_unconfigured_validator_accepts `{RegexpLib} `{HeaderLib} `{HistogramLib}
    (cfg : Config.ValidationConfig) (resp : Response) (body : string) :
  Config.StatusCodes cfg = [] ->
  Config.HeaderValidation cfg = ∅ ->
  Config.MinSize (Config.Body_Validation cfg) = 0 ->
  Config.MaxSize (Config.Body_Validation cfg) = 0 ->
  Config.Contains (Config.Body_Validation cfg) = [] ->
  Config.NotContains (Config.Body_Validation cfg) = [] ->
  Config.ContentPatterns cfg = [] ->
  Validate (New cfg) resp body = None
  /\ forall (c : Collector) (latency contentLength : Z),
       executeRequest_calls (New cfg) (Completed latency resp body contentLength)
       = [CallRecordRequest latency (Z.of_nat (String.length body)) contentLength true;
          CallRecordStatusCode (StatusCode resp)]
       /\ successRequests (executeRequest (New cfg) c (Completed latency resp body contentLength))
          = add64 (successRequests c) 1
       /\ totalErrors (executeRequest (New cfg) c (Completed latency resp body contentLength))
          = totalErrors c
       /\ totalRequests (executeRequest (New cfg) c (Completed latency resp body contentLength))
          = add64 (totalRequests c) 1.
Proof.
  intros Hcodes Hheaders Hmin Hmax Hreq Hforb Hpat.
  assert (Hvalid : Validate (New cfg) resp body = None).
  { unfold Validate, validateStatusCode, validateHeaders, validateBody.
    rewrite contentPatterns_New. simpl.
    rewrite Hcodes, Hheaders, Hmin, Hmax, Hreq, Hforb, Hpat. simpl.
    rewrite map_size_empty, map_to_list_empty. reflexivity. }
  split; [exact Hvalid|].
  intros c latency contentLength.
  unfold executeRequest, executeRequest_calls. rewrite Hvalid.
  repeat split.
Qed.

Lemma C10_unconfigured_validator_accepts_witness :
  Validate (New noValidation) (response 503) "Service Unavailable" = None
  /\ forall (c : Collector) (latency contentLength : Z),
       executeRequest_calls (New noValidation)
         (Completed latency (response 503) "Service Unavailable" contentLength)
       = [CallRecordRequest latency 19 contentLength true; CallRecordStatusCode 503]
       /\ successRequests (executeRequest (New noValidation) c
            (Completed latency (response 503) "Service Unavailable" contentLength))
          = add64 (successRequests c) 1
       /\ totalErrors (executeRequest (New noValidation) c
            (Completed latency (response 503) "Service Unavailable" contentLength))
          = totalErrors c
       /\ totalRequests (executeRequest (New noValidation) c
            (Completed latency (response 503) "Service Unavailable" contentLength))
          = add64 (totalRequests c) 1.
Proof.
  exact (C10_unconfigured_validator_accepts noValidation (response 503) "Service Unavailable"
           eq_refl eq_refl eq_refl eq_refl eq_refl eq_refl eq_refl).
Defined.

(** A few runs of the validator. *)
Example default_rejects_500 :
  reported <$> Validate (New defaultValidation) (response 500) "oops"
  = Some ("status_code"%string, CheckStatus).
Proof. vm_compute. reflexivity. Qed.

Example pattern_checked_after_status :
  reported <$> Validate (New oneBadPattern) (response 200) "ok, not finished"
  = Some ("content_pattern"%string, CheckRegex).
Proof. vm_compute. reflexivity. Qed.

Example bad_pattern_never_fails :
  Validate (New oneBadPattern) (response 200) "ok and done" = None.
Proof. vm_compute. reflexivity. Qed.

(** ** Spacing of the time series *)

Lemma spaced_snoc (pts : list TimePoint) (p : TimePoint) :
  spaced pts ->
  (forall q, last pts = Some q -> Timestamp q + Second <= Timestamp p) ->
  spaced (pts ++ [p]).
Proof.
  induction pts as [|a pts IH]; intros Hsp Hlast; simpl; [done|].
  destruct Hsp as [Hhead Htail]. split.
  - destruct pts as [|b pts]; simpl; [by apply Hlast | exact Hhead].
  - apply IH; [exact Htail|]. intros q Hq. apply Hlast.
    destruct pts; [discriminate | exact Hq].
Qed.

Lemma tracked_recordTimePoint `{HistogramLib} (lo : Z) (c : Collector)
    (snap : Snapshot) (now : Z) :
  tracked lo c -> tracked lo (recordTimePoint c snap now).
Proof.
  intros (Hsp & Hlast & Hlo & Hle).
  destruct (Z.lt_ge_cases (now - lastSnapshot c) Second) as [Hsoon|Hlate].
  - by rewrite recordTimePoint_skips.
  - destruct (recordTimePoint_appends c snap now Hlate) as (p & Hts & Hls & Hp & _).
    unfold tracked. rewrite Hts, Hls. repeat split.
    + apply spaced_snoc; [exact Hsp|]. intros q Hq. rewrite (Hlast q Hq). lia.
    + intros q. rewrite last_snoc. by intros [= <-].
    + apply Forall_app. split; [exact Hlo|]. apply Forall_singleton. lia.
    + unfold Second in Hlate. lia.
Qed.

Lemma tracked_run `{HistogramLib} (lo : Z) (ops : list Op) :
  forall (c : Collector) (clock : Z),
    tracked lo c -> lo <= clock ->
    nondecreasing (clock :: flat_map readings ops) ->
    tracked lo (run c ops).
Proof.
  induction ops as [|op ops IH]; intros c clock Hc Hlo Hclock; [exact Hc|].
  unfold run. simpl fold_left. fold (run (step c op) ops).
  destruct op as [l r s ok|k|code|stamp now|r1 r2]; simpl in Hclock.
  - apply (IH _ clock); [exact Hc | exact Hlo | exact Hclock].
  - apply (IH _ clock); [exact Hc | exact Hlo | exact Hclock].
  - apply (IH _ clock); [exact Hc | exact Hlo | exact Hclock].
  - destruct Hclock as (H1 & H2 & Hrest).
    apply (IH _ now); [|lia|exact Hrest].
    simpl. by apply tracked_recordTimePoint.
  - destruct Hclock as (H1 & H2 & Hrest).
    apply (IH _ r2); [|lia|exact Hrest].
    unfold tracked. simpl.
    split; [exact I|]. split; [intros p; discriminate|]. split; [constructor | lia].
Qed.

(** C9: along any run of the collector under a clock that does not go
    back, consecutive points of the time series are at least one second
    apart, every point is at least one second later than the creation of
    the collector, and a snapshot taken less than one second after the
    last point (after creation or reset when there is none) leaves the
    series as it is. *)
Theorem C9_points_one_second_apart `{HistogramLib} (t1 t2 : Z) (ops : list Op) :
  nondecreasing (t1 :: t2 :: flat_map readings ops) ->
  spaced (timeSeries (run (NewCollector t1 t2) ops))
  /\ Forall (fun p => t2 + Second <= Timestamp p /\ t1 + Second <= Timestamp p)
       (timeSeries (run (NewCollector t1 t2) ops))
  /\ forall stamp now : Z,
       now - match last (timeSeries (run (NewCollector t1 t2) ops)) with
             | Some p => Timestamp p
             | None => lastSnapshot (run (NewCollector t1 t2) ops)
             end < Second ->
       timeSeries (Snapshot_ (run (NewCollector t1 t2) ops) stamp now).2
       = timeSeries (run (NewCollector t1 t2) ops).
Proof.
  intros (Ht & Hclock).
  assert (Htr : tracked t2 (run (NewCollector t1 t2) ops)).
  { apply (tracked_run t2 ops _ t2); [|lia|exact Hclock].
    unfold tracked. simpl.
    split; [exact I|]. split; [intros p; discriminate|]. split; [constructor | lia]. }
  destruct Htr as (Hsp & Hlast & Hlo & Hle).
  split; [exact Hsp|]. split.
  - eapply Forall_impl; [exact Hlo|]. simpl. intros p Hp. lia.
  - intros stamp now Hsoon. simpl. rewrite recordTimePoint_skips; [done|].
    destruct (last _) as [p|]; [|exact Hsoon]. by rewrite <- (Hlast p).
Qed.

Lemma C9_points_one_second_apart_witness :
  spaced (timeSeries (run (NewCollector 0 0) fiveThenIdle))
  /\ Forall (fun p => 0 + Second <= Timestamp p /\ 0 + Second <= Timestamp p)
       (timeSeries (run (NewCollector 0 0) fiveThenIdle))
  /\ forall stamp now : Z,
       now - match last (timeSeries (run (NewCollector 0 0) fiveThenIdle)) with
             | Some p => Timestamp p
             | None => lastSnapshot (run (NewCollector 0 0) fiveThenIdle)
             end < Second ->
       timeSeries (Snapshot_ (run (NewCollector 0 0) fiveThenIdle) stamp now).2
       = timeSeries (run (NewCollector 0 0) fiveThenIdle).
Proof.
  apply (C9_points_one_second_apart 0 0 fiveThenIdle).
  simpl. unfold Second. repeat split; lia.
Defined.

(** ** Rate limiter construction *)

(** The engine installs a limiter exactly when the configured rate is
    positive; its period is one second divided by the rate, in whole
    nanoseconds. *)
Lemma New_rateLimiter_absent (cfg : Config.Config) :
  Config.RateLimit (Config.Load cfg) <= 0 -> New_rateLimiter cfg = Returns None.
Proof.
  intros Hle. unfold New_rateLimiter.
  destruct (Z.ltb_spec 0 (Config.RateLimit (Config.Load cfg))); [lia | reflexivity].
Qed.

Lemma New_rateLimiter_present (cfg : Config.Config) :
  0 < Config.RateLimit (Config.Load cfg) <= Second ->
  New_rateLimiter cfg =
    Returns (Some {| rps := Config.RateLimit (Config.Load cfg);
                     interval := Second / Config.RateLimit (Config.Load cfg) |}).
Proof.
  intros [Hpos Hle]. unfold New_rateLimiter, NewRateLimiter, quot64.
  set (r := Config.RateLimit (Config.Load cfg)) in *.
  destruct (Z.ltb_spec 0 r); [|lia].
  destruct (Z.eqb_spec r 0); [lia|].
  assert (Hq : Second ÷ r = Second / r) by (apply Z.quot_div_nonneg; unfold Second; lia).
  assert (Hbounds : 1 <= Second / r <= Second).
  { split.
    - apply Z.div_le_lower_bound; lia.
    - apply Z.div_le_upper_bound; unfold Second in *; nia. }
  rewrite Hq, wrap64_id by (unfold in_range, min_int, max_int, Second in *; lia).
  destruct (Z.leb_spec (Second / r) 0); [lia | reflexivity].
Qed.

Example limiter_100_rps : NewRateLimiter 100 = Returns {| rps := 100; interval := 10000000 |}.
Proof. reflexivity. Qed.
